(** * Dynatrace::Environment::SyntheticMonitor — lifecycle handlers

    A shallow embedding of [src/Dynatrace-Environment-SyntheticMonitor/src/handlers.ts]:
    the Create / Update / Delete handlers, the retry helper
    [processRequestExceptionWithRetryableErrors] and [setModelFrom], together
    with the properties the specification states about them.

    The handlers are asynchronous methods that talk to the Dynatrace API, draw
    random numbers and throw exceptions.  They are embedded as programs of a
    small reader/state/error monad [M]: the reader part is the environment of
    one invocation (what the API answers to each call, what [Math.random]
    returns), the state part is the list of API calls issued so far, and the
    error part is the JavaScript exception that is in flight. *)

From Stdlib Require Import ZArith QArith Qpower Lia Lqa Bool.
From stdpp Require Import base option list strings gmap.

Open Scope Z_scope.

(** ** JavaScript numbers in a callback context

    A field such as [retry?: number] is absent on the first invocation, holds
    an integer afterwards, and may hold [NaN] when the handler computed it from
    an absent field.  The host keeps the context as JSON between invocations,
    and JSON writes [NaN] as [null]. *)
Module JS.

Inductive value : Type :=
| Undefined
| Null
| NaN
| Num (n : Z).

(** [!!v] *)
Definition truthy (v : value) : bool :=
  match v with
  | Num n => negb (n =? 0)
  | _ => false
  end.

(** [v || d] *)
Definition or (v d : value) : value := if truthy v then v else d.

(** [ToNumber]: [None] stands for [NaN]. *)
Definition toNumber (v : value) : option Z :=
  match v with
  | Undefined | NaN => None
  | Null => Some 0
  | Num n => Some n
  end.

(** [v + 1] *)
Definition succ (v : value) : value :=
  match toNumber v with
  | Some n => Num (n + 1)
  | None => NaN
  end.

(** [a < b], [a <= b], [a > b]: false as soon as one side is [NaN]. *)
Definition cmp (op : Z -> Z -> bool) (a b : value) : bool :=
  match toNumber a, toNumber b with
  | Some x, Some y => op x y
  | _, _ => false
  end.

Definition lt : value -> value -> bool := cmp Z.ltb.
Definition le : value -> value -> bool := cmp Z.leb.
Definition gt : value -> value -> bool := cmp Z.gtb.

(** [JSON.parse(JSON.stringify(v))] for a field of an object: an absent field
    stays absent and [NaN] comes back as [null]. *)
Definition json (v : value) : value :=
  match v with
  | NaN => Null
  | _ => v
  end.

(** A number that is the result of float arithmetic: a rational or [NaN]. *)
Inductive float : Type :=
| FNaN
| FVal (q : Q).

End JS.

(* Compute with these only once the value is known. *)
Arguments JS.truthy !v /.
Arguments JS.or !v d /.
Arguments JS.toNumber !v /.
Arguments JS.succ !v /.
Arguments JS.cmp op !a !b /.
Arguments JS.lt !a !b /.
Arguments JS.le !a !b /.
Arguments JS.gt !a !b /.
Arguments JS.json !v /.

(** ** Data model *)

(** [RetryableCallbackContext] extended with [serverTiming]
    ([EventuallyConsistentCallbackContext]). *)
Record CallbackContext : Type := mkContext {
  retry : JS.value;
  operationCompleted : option bool;
  successfulCalls : JS.value;
  serverTiming : JS.value
}.

(** The object literal [{}]. *)
Definition emptyContext : CallbackContext :=
  {| retry := JS.Undefined; operationCompleted := None;
     successfulCalls := JS.Undefined; serverTiming := JS.Undefined |}.

(** [!!callbackContext.operationCompleted] *)
Definition completed (c : CallbackContext) : bool :=
  match operationCompleted c with
  | Some b => b
  | None => false
  end.

(** The error codes of the handler exceptions ([exceptions.NotFound], ...);
    [Other] stands for every code the handlers never name. *)
Inductive FaultKind : Type :=
| NotFound
| AlreadyExists
| ServiceInternalError
| NotStabilized
| Other.

#[global] Instance FaultKind_eq_dec : EqDecision FaultKind.
Proof. solve_decision. Defined.

(** A rejected API call: the HTTP status of the [AxiosError] and whether the
    vendor's error code reports an internal failure. *)
Record ApiFault : Type := mkFault {
  status : Z;
  vendorInternal : bool
}.

(** What a [catch] clause can receive: the rejection of an API call or an
    exception the handler raised itself. *)
Inductive Thrown : Type :=
| AxiosFault (f : ApiFault)
| Raised (k : FaultKind).

(** [e.errorCode] *)
Definition errorCode (e : Thrown) : option FaultKind :=
  match e with
  | Raised k => Some k
  | AxiosFault _ => None
  end.

(** [JSON.parse(JSON.stringify(e)).status === s] *)
Definition statusIs (e : Thrown) (s : Z) : bool :=
  match e with
  | AxiosFault f => status f =? s
  | Raised _ => false
  end.

(** The resource model and the payload of a response are JSON objects; the
    payload is taken with the keys of the model (the key transformation of
    [Transformer] is not part of this file). *)
Abbreviation ResourceModel := (gmap string string).

Record AxiosResponse : Type := mkResponse {
  data : option (gmap string string);
  timing : Z
}.

Inductive ProgressEvent : Type :=
| InProgress (model : ResourceModel) (context : CallbackContext)
             (callbackDelaySeconds : option JS.float)
| Success (model : option ResourceModel)
| Failed (k : FaultKind).

(** ** The monad of one handler invocation *)

Inductive Call : Type := CallGet | CallCreate | CallUpdate | CallDelete.

#[global] Instance Call_eq_dec : EqDecision Call.
Proof. solve_decision. Defined.

Inductive Reply : Type :=
| Resolved (r : AxiosResponse)
| Rejected (f : ApiFault).

(** The environment of one invocation: [reply n] answers the [n]-th API call
    of the invocation (counted from 0), [random1] and [random2] are the first
    and the second value of [Math.random()]. *)
Record Env : Type := mkEnv {
  reply : nat -> Reply;
  random1 : Q;
  random2 : Q
}.

Inductive Result (A : Type) : Type :=
| Return (a : A)
| Throw (e : Thrown).
Arguments Return {A} a.
Arguments Throw {A} e.

Definition M (A : Type) : Type := Env -> list Call -> Result A * list Call.

Definition ret {A} (a : A) : M A := fun _ tr => (Return a, tr).

Definition bind {A B} (m : M A) (k : A -> M B) : M B :=
  fun env tr =>
    match m env tr with
    | (Return a, tr') => k a env tr'
    | (Throw e, tr') => (Throw e, tr')
    end.

Definition throw {A} (e : Thrown) : M A := fun _ tr => (Throw e, tr).

(** [try { m } catch (e) { h e }] *)
Definition try_catch {A} (m : M A) (h : Thrown -> M A) : M A :=
  fun env tr =>
    match m env tr with
    | (Return a, tr') => (Return a, tr')
    | (Throw e, tr') => h e env tr'
    end.

Notation "'let*' x := m 'in' k" := (bind m (fun x => k))
  (at level 10, x name, m at level 100, k at level 200).

(** An API call: logged, and answered by the environment. *)
Definition request (c : Call) : M AxiosResponse :=
  fun env tr =>
    match reply env (length tr) with
    | Resolved r => (Return r, tr ++ [c])
    | Rejected f => (Throw (AxiosFault f), tr ++ [c])
    end.

Definition get (model : ResourceModel) : M AxiosResponse := request CallGet.
Definition create (model : ResourceModel) : M AxiosResponse := request CallCreate.
Definition update (model : ResourceModel) : M AxiosResponse := request CallUpdate.
Definition delete (model : ResourceModel) : M AxiosResponse := request CallDelete.

(** ** The resource class *)

Definition maxRetries : JS.value := JS.Num 10.
Definition stabilizationRetries : JS.value := JS.Num 5.

(** [Math.pow(2, Math.floor(retry/2)) * Math.random() * Math.random()] with
    the two random values given.  The rationals stand for the doubles of the
    code as long as the power of two is a finite double, that is for retry
    counts from 0 to 2047; from 2048 on [Math.pow] is [Infinity], which is
    not modelled: what is proved of the value of a delay is stated for retry
    counts in that range. *)
Definition backoff (retry : JS.value) (r1 r2 : Q) : JS.float :=
  match JS.toNumber retry with
  | Some n => JS.FVal ((2 ^ (n / 2) * r1) * r2)%Q
  | None => JS.FNaN
  end.

(** [const maxDelay = Math.pow(...) * Math.random()] followed by
    [maxDelay * Math.random()]: the delay asked of the host. *)
Definition jitteredDelay (retry : JS.value) : M JS.float :=
  fun env tr => (Return (backoff retry (random1 env) (random2 env)), tr).

(** [setModelFrom] *)
Definition setModelFrom (model : ResourceModel) (from : AxiosResponse) : ResourceModel :=
  match data from with
  | None => model
  | Some d => base.delete "requests" (base.delete "tags" (d ∪ model))
  end.

(** Modelled from the spec: [getServerTiming] of the base class is not among
    the sources; it extracts the server-provided timing marker of a
    response. *)
Definition getServerTiming (r : AxiosResponse) : JS.value := JS.Num (timing r).

(** Modelled from the spec: the error classifier behind
    [processRequestException] (class [AbstractDynatraceResource]) is not among
    the sources.  Its table is: HTTP 404 is [NotFound], 409 is
    [AlreadyExists], 5xx or a vendor code that reports an internal failure is
    [ServiceInternalError], all else is [Other].  An exception the handler
    raised itself and then caught ([AlreadyExists], [NotStabilized]) carries
    no HTTP status and no vendor code: it is among "all else". *)
Definition classify (e : Thrown) : FaultKind :=
  match e with
  | Raised _ => Other
  | AxiosFault f =>
      if status f =? 404 then NotFound
      else if status f =? 409 then AlreadyExists
      else if ((500 <=? status f) && (status f <? 600)) || vendorInternal f
           then ServiceInternalError
      else Other
  end.

(** Modelled from the spec: [processRequestException] always re-raises the
    fault, classified. *)
Definition processRequestException {A} (e : Thrown) : M A :=
  throw (Raised (classify e)).

(** [retryableErrorsList.includes(e.errorCode)] *)
Definition includes (l : list FaultKind) (c : option FaultKind) : bool :=
  match c with
  | Some k => bool_decide (k ∈ l)
  | None => false
  end.

(** The context literal [{ retry: retry }]. *)
Definition retryOnly (r : JS.value) : CallbackContext :=
  {| retry := r; operationCompleted := None;
     successfulCalls := JS.Undefined; serverTiming := JS.Undefined |}.

Definition processRequestExceptionWithRetryableErrors
    (e : Thrown) (model : ResourceModel) (callbackContext : CallbackContext)
    (retryableErrorsList : list FaultKind) : M ProgressEvent :=
  try_catch (processRequestException e)
    (fun e =>
       if includes retryableErrorsList (errorCode e) then
         let retry := JS.or (retry callbackContext) (JS.Num 1) in
         let* delay := jitteredDelay retry in
         ret (InProgress model (retryOnly retry) (Some delay))
       else throw e).

(** [createHandler].  A resolved [get] is an object, hence truthy: the
    absence check raises [AlreadyExists] whenever the read succeeds. *)
Definition createHandler (desiredResourceState : ResourceModel)
    (callbackContext : CallbackContext) : M ProgressEvent :=
  let model := desiredResourceState in
  if negb (JS.truthy (retry callbackContext)) then
    (* GET to ensure doesn't already exist *)
    let* early :=
      try_catch
        (let* getResult := get model in
         throw (Raised AlreadyExists))
        (fun e1 =>
           if negb (statusIs e1 404) && negb (statusIs e1 400) then
             let* ev := processRequestExceptionWithRetryableErrors
                          e1 model callbackContext [ServiceInternalError] in
             ret (Some ev)
           else ret None) in
    match early with
    | Some ev => ret ev
    | None =>
        (* CREATE *)
        try_catch
          (let* data := create model in
           let model := setModelFrom model data in
           let retry := JS.Num 1 in
           let* delay := jitteredDelay retry in
           ret (InProgress model (retryOnly retry) (Some delay)))
          (fun e =>
             processRequestExceptionWithRetryableErrors
               e model callbackContext [NotFound; ServiceInternalError])
    end
  else
    (* GET to ensure created successfully *)
    try_catch
      (let* data := get model in
       let successfulCalls' := JS.or (successfulCalls callbackContext) (JS.Num 0) in
       if JS.lt successfulCalls' stabilizationRetries
          && JS.le (retry callbackContext) maxRetries then
         let* delay := jitteredDelay (retry callbackContext) in
         ret (InProgress model
                {| retry := retry callbackContext;
                   operationCompleted := None;
                   successfulCalls := JS.succ (successfulCalls callbackContext);
                   serverTiming := JS.Undefined |}
                (Some delay))
       else
         let model := setModelFrom model data in
         ret (Success (Some model)))
      (fun e1 =>
         let updatedContext :=
           {| retry := retry callbackContext;
              operationCompleted := None;
              successfulCalls := JS.Num 0;
              serverTiming := JS.Undefined |} in
         processRequestExceptionWithRetryableErrors
           e1 model updatedContext [NotFound; ServiceInternalError]).

(** [updateHandler] *)
Definition updateHandler (desiredResourceState : ResourceModel)
    (callbackContext : CallbackContext) : M ProgressEvent :=
  let model := desiredResourceState in
  if JS.truthy (retry callbackContext) && JS.gt (retry callbackContext) maxRetries then
    throw (Raised NotStabilized)
  else
    let* early :=
      if negb (JS.truthy (serverTiming callbackContext))
         && negb (completed callbackContext) then
        (* GET to ensure the resource exists *)
        let* failed :=
          try_catch
            (let* _ := get model in ret None)
            (fun e1 =>
               let* ev := processRequestExceptionWithRetryableErrors
                            e1 model callbackContext [ServiceInternalError] in
               ret (Some ev)) in
        match failed with
        | Some ev => ret (Some ev)
        | None =>
            (* UPDATE *)
            try_catch
              (let* _ := update model in
               let retry := JS.or (retry callbackContext) (JS.Num 1) in
               let* delay := jitteredDelay retry in
               ret (Some (InProgress model
                            {| retry := retry;
                               operationCompleted := Some true;
                               successfulCalls := JS.Undefined;
                               serverTiming := JS.Undefined |}
                            (Some delay))))
              (fun e1 =>
                 let* ev := processRequestExceptionWithRetryableErrors
                              e1 model callbackContext
                              [NotFound; ServiceInternalError] in
                 ret (Some ev))
        end
      else ret None in
    match early with
    | Some ev => ret ev
    | None =>
        (* GET to ensure updated successfully *)
        try_catch
          (let* getResponse := get model in
           let getServerTiming' := getServerTiming getResponse in
           if JS.truthy (serverTiming callbackContext)
              && JS.lt getServerTiming' (serverTiming callbackContext) then
             ret (InProgress model
                    {| retry := JS.succ (retry callbackContext);
                       operationCompleted := None;
                       successfulCalls := JS.Undefined;
                       serverTiming := getServerTiming' |}
                    None)
           else
             let model := setModelFrom model getResponse in
             ret (Success (Some model)))
          (fun e1 =>
             if negb (JS.truthy (serverTiming callbackContext)) then
               throw (Raised NotStabilized)
             else
               processRequestExceptionWithRetryableErrors
                 e1 model callbackContext [ServiceInternalError])
    end.

(** [e2 instanceof NotFound] *)
Definition isNotFound (e : Thrown) : bool :=
  match e with
  | Raised NotFound => true
  | _ => false
  end.

(** [deleteHandler] *)
Definition deleteHandler (desiredResourceState : ResourceModel)
    (callbackContext : CallbackContext) : M ProgressEvent :=
  let model := desiredResourceState in
  let* early :=
    if negb (completed callbackContext) then
      (* GET to ensure the resource exists *)
      let* failed :=
        try_catch
          (let* _ := get model in ret None)
          (fun e1 =>
             let* ev := processRequestExceptionWithRetryableErrors
                          e1 model callbackContext [ServiceInternalError] in
             ret (Some ev)) in
      match failed with
      | Some ev => ret (Some ev)
      | None =>
          (* DELETE *)
          try_catch
            (let* _ := delete model in ret None)
            (fun e1 =>
               let* ev := processRequestExceptionWithRetryableErrors
                            e1 model callbackContext
                            [NotFound; ServiceInternalError] in
               ret (Some ev))
      end
    else ret None in
  match early with
  | Some ev => ret ev
  | None =>
      (* GET to ensure delete was successful *)
      try_catch
        (let* _ := get model in
         let retry' := JS.or (retry callbackContext) (JS.Num 1) in
         if JS.le retry' maxRetries then
           let* delay := jitteredDelay (retry callbackContext) in
           let retry' := JS.or (retry callbackContext) (JS.Num 1) in
           ret (InProgress model
                  {| retry := JS.succ retry';
                     operationCompleted := Some true;
                     successfulCalls := JS.Undefined;
                     serverTiming := JS.Undefined |}
                  (Some delay))
         else throw (Raised NotStabilized))
        (fun e1 =>
           try_catch
             (let updatedCallbackContext :=
                {| retry := retry callbackContext;
                   operationCompleted := Some true;
                   successfulCalls := JS.Undefined;
                   serverTiming := JS.Undefined |} in
              processRequestExceptionWithRetryableErrors
                e1 model updatedCallbackContext [ServiceInternalError])
             (fun e2 =>
                if isNotFound e2 then ret (Success None) else throw e2))
  end.

(** ** The host's side of an invocation *)

(** What the host sees: an exception that leaves the handler becomes a
    [Failed] event tagged with its error code. *)
Definition toEvent (r : Result ProgressEvent) : ProgressEvent :=
  match r with
  | Return ev => ev
  | Throw (Raised k) => Failed k
  | Throw (AxiosFault _) => Failed Other
  end.

(** One invocation of a handler: the event handed to the host and the API
    calls issued, in order. *)
Definition invoke (handler : ResourceModel -> CallbackContext -> M ProgressEvent)
    (model : ResourceModel) (ctx : CallbackContext) (env : Env)
  : ProgressEvent * list Call :=
  let (r, tr) := handler model ctx env [] in (toEvent r, tr).

(** The context as the host hands it back: stored as JSON in between. *)
Definition persist (c : CallbackContext) : CallbackContext :=
  {| retry := JS.json (retry c);
     operationCompleted := operationCompleted c;
     successfulCalls := JS.json (successfulCalls c);
     serverTiming := JS.json (serverTiming c) |}.

(** Re-invocation by the host: one environment per invocation; the loop stops
    at the first terminal event (or when the environments run out, returning
    the last event).  The desired state of the request is the same at every
    invocation. *)
Fixpoint reinvoke (handler : ResourceModel -> CallbackContext -> M ProgressEvent)
    (model : ResourceModel) (ctx : CallbackContext) (envs : list Env)
  : option ProgressEvent :=
  match envs with
  | [] => None
  | env :: rest =>
      match fst (invoke handler model ctx env) with
      | InProgress _ ctx' _ as ev =>
          match rest with
          | [] => Some ev
          | _ => reinvoke handler model (persist ctx') rest
          end
      | ev => Some ev
      end
  end.

(** The contexts a run of an operation hands to its handler: [{}] at the
    first invocation, then the context of each [InProgress] event, as the
    host stored it. *)
Inductive produced (handler : ResourceModel -> CallbackContext -> M ProgressEvent)
  : CallbackContext -> Prop :=
| produced_first : produced handler emptyContext
| produced_next (model : ResourceModel) (ctx : CallbackContext) (env : Env)
    (m : ResourceModel) (ctx' : CallbackContext) (d : option JS.float) :
    produced handler ctx ->
    fst (invoke handler model ctx env) = InProgress m ctx' d ->
    produced handler (persist ctx').

(** The three lifecycle handlers. *)
Definition handlers : list (ResourceModel -> CallbackContext -> M ProgressEvent) :=
  [createHandler; updateHandler; deleteHandler].

(** [a <= b] on floats: false as soon as one side is [NaN]. *)
Definition fle (a b : JS.float) : Prop :=
  match a, b with
  | JS.FVal x, JS.FVal y => (x <= y)%Q
  | _, _ => False
  end.

(** ** Contexts, responses and environments used in the examples *)

(** [{ retry: n, operationCompleted: true }] *)
Definition verifying (n : Z) : CallbackContext :=
  {| retry := JS.Num n; operationCompleted := Some true;
     successfulCalls := JS.Undefined; serverTiming := JS.Undefined |}.

(** [{ retry: n, successfulCalls: calls }] *)
Definition stabilizing (n : Z) (calls : JS.value) : CallbackContext :=
  {| retry := JS.Num n; operationCompleted := None;
     successfulCalls := calls; serverTiming := JS.Undefined |}.

(** A response without payload, and one that carries the timing marker [t]. *)
Definition resourceFound : AxiosResponse := {| data := None; timing := 0 |}.

Definition observed (t : Z) : AxiosResponse := {| data := None; timing := t |}.

(** Environments in which every API call resolves with [r], or is rejected
    with HTTP status [s]. *)
Definition alwaysResolved (r : AxiosResponse) : Env :=
  {| reply := fun _ => Resolved r; random1 := 1 # 2; random2 := 1 # 2 |}.

Definition alwaysRejected (s : Z) : Env :=
  {| reply := fun _ => Rejected (mkFault s false); random1 := 1 # 2; random2 := 1 # 2 |}.

(** Environments given by a script of replies. *)
Definition scripted (replies : list Reply) (rest : Reply) : Env :=
  {| reply := fun n => nth n replies rest; random1 := 1 # 2; random2 := 1 # 2 |}.

(** [list]: once the request for all monitors has resolved, every monitor
    payload of the response is merged into the model, as
    [setModelFrom(model, {data: monitorPayload})]. *)
Definition listModels (model : ResourceModel) (monitors : list (gmap string string))
  : list ResourceModel :=
  (fun monitorPayload => setModelFrom model {| data := Some monitorPayload; timing := 0 |})
    <$> monitors.

(** The first API call of an invocation in [env] resolves. *)
Definition firstResolves (env : Env) : Prop :=
  exists r, reply env 0%nat = Resolved r.

(** ** Proof automation *)

(** Symbolic execution of one invocation: unfold the handler and the monad,
    then compute as far as the environment is known. *)
Ltac exec :=
  unfold invoke, createHandler, updateHandler, deleteHandler,
    processRequestExceptionWithRetryableErrors, processRequestException,
    bind, try_catch, ret, throw, get, create, update, delete, request,
    jitteredDelay;
  cbn -[setModelFrom getServerTiming backoff classify].

(** Split on every API reply and every test the execution meets. *)
Ltac split_run :=
  repeat match goal with
    | |- context [match reply ?e ?n with _ => _ end] => destruct (reply e n); exec
    | |- context [if ?b then _ else _] => destruct b eqn:?; exec
    end.

(** The same, keeping what each reply and each test was. *)
Ltac split_run_eq :=
  repeat match goal with
    | |- context [match reply ?e ?n with _ => _ end] =>
        destruct (reply e n) eqn:?; exec
    | |- context [if ?b then _ else _] => destruct b eqn:?; exec
    end.

(** * Properties *)

(** ** The retry helper *)

Section Helper.
Variables (e : Thrown) (model : ResourceModel) (ctx : CallbackContext).
Variables (l : list FaultKind) (env : Env) (tr : list Call).

(** A fault whose kind is on the allow-list is answered by [InProgress];
    the context of the answer is the literal [{ retry: retry }]. *)
Lemma helper_retryable :
  includes l (Some (classify e)) = true ->
  processRequestExceptionWithRetryableErrors e model ctx l env tr
  = (Return (InProgress model
               (retryOnly (JS.or (retry ctx) (JS.Num 1)))
               (Some (backoff (JS.or (retry ctx) (JS.Num 1))
                              (random1 env) (random2 env)))),
     tr).
Proof.
  intros Hin.
  unfold processRequestExceptionWithRetryableErrors, try_catch,
    processRequestException, throw.
  cbn [errorCode]. rewrite Hin. reflexivity.
Qed.

End Helper.

(** ** The model merged from a response *)

(** A response without payload leaves the model as it is. *)
Lemma setModelFrom_no_data (model : ResourceModel) (r : AxiosResponse) :
  data r = None -> setModelFrom model r = model.
Proof. intros Hd. unfold setModelFrom. rewrite Hd. reflexivity. Qed.

(** Otherwise a field is read from the payload first and from the model
    second; [tags] and [requests] are removed. *)
Lemma setModelFrom_lookup
    (model : ResourceModel) (r : AxiosResponse) (d : gmap string string) (k : string) :
  data r = Some d ->
  k <> "tags"%string -> k <> "requests"%string ->
  setModelFrom model r !! k
  = match d !! k with
    | Some v => Some v
    | None => model !! k
    end.
Proof.
  intros Hd Htags Hreq. unfold setModelFrom. rewrite Hd.
  rewrite lookup_delete_ne by congruence.
  rewrite lookup_delete_ne by congruence.
  rewrite lookup_union.
  destruct (d !! k), (model !! k); reflexivity.
Qed.

Lemma setModelFrom_removes
    (model : ResourceModel) (r : AxiosResponse) (d : gmap string string) :
  data r = Some d ->
  setModelFrom model r !! "tags"%string = None
  /\ setModelFrom model r !! "requests"%string = None.
Proof.
  intros Hd. unfold setModelFrom. rewrite Hd. split.
  - rewrite lookup_delete_ne by discriminate. apply lookup_delete_eq.
  - apply lookup_delete_eq.
Qed.

(** ** Single steps *)


(** ** Create: the absence check *)



(** ** Update: the entry guard *)

(** C8.  An Update invocation whose context carries a retry count above the
    bound of 10 fails with [NotStabilized] and issues no API call, whatever
    phase the rest of the context indicates. *)
Theorem update_entry_guard
    (model : ResourceModel) (ctx : CallbackContext) (env : Env) (n : Z) :
  retry ctx = JS.Num n ->
  10 < n ->
  invoke updateHandler model ctx env = (Failed NotStabilized, []).
Proof.
  intros Hretry Hn.
  unfold invoke, updateHandler. rewrite Hretry.
  assert (Hguard : JS.truthy (JS.Num n) && JS.gt (JS.Num n) maxRetries = true).
  { apply andb_true_intro. split.
    - cbn. apply negb_true_iff, Z.eqb_neq. lia.
    - cbn. unfold Z.gtb. rewrite (proj2 (Z.compare_gt_iff n 10)) by lia. reflexivity. }
  rewrite Hguard. reflexivity.
Qed.

Lemma update_entry_guard_witness :
  invoke updateHandler ∅
    {| retry := JS.Num 11; operationCompleted := Some true;
       successfulCalls := JS.Undefined; serverTiming := JS.Num 7 |}
    (alwaysResolved resourceFound)
  = (Failed NotStabilized, []).
Proof.
  apply (update_entry_guard ∅ _ (alwaysResolved resourceFound) 11); [reflexivity | lia].
Defined.

(** ** Delete: verification of the absence *)

Section DeleteVerify.
Variables (model : ResourceModel) (ctx : CallbackContext) (env : Env).
Hypothesis Hphase : completed ctx = true.

Lemma delete_verify_not_found (f : ApiFault) :
  reply env 0%nat = Rejected f ->
  classify (AxiosFault f) = NotFound ->
  invoke deleteHandler model ctx env = (Success None, [CallGet]).
Proof.
  intros Hget Hkind. exec. rewrite Hphase. exec. rewrite Hget. exec.
  change (match f with {| status := s |} => _ end) with (classify (AxiosFault f)).
  rewrite Hkind. reflexivity.
Qed.

End DeleteVerify.


(** The verification read is also made by the invocation that issued the
    delete call: it is then the third API call. *)
Lemma delete_first_invocation_verifies
    (model : ResourceModel) (ctx : CallbackContext) (env : Env) (r0 r1 r2 : AxiosResponse) :
  completed ctx = false ->
  reply env 0%nat = Resolved r0 ->
  reply env 1%nat = Resolved r1 ->
  reply env 2%nat = Resolved r2 ->
  JS.le (JS.or (retry ctx) (JS.Num 1)) maxRetries = true ->
  invoke deleteHandler model ctx env
  = (InProgress model
       {| retry := JS.succ (JS.or (retry ctx) (JS.Num 1));
          operationCompleted := Some true;
          successfulCalls := JS.Undefined; serverTiming := JS.Undefined |}
       (Some (backoff (retry ctx) (random1 env) (random2 env))),
     [CallGet; CallDelete; CallGet]).
Proof.
  intros Hphase H0 H1 H2 Hle. exec. rewrite Hphase. exec.
  rewrite H0. exec. rewrite H1. exec. rewrite H2. exec. rewrite Hle. reflexivity.
Qed.

(** ** Update: verification of the timing marker *)

Section UpdateVerify.
Variables (model : ResourceModel) (ctx : CallbackContext) (env : Env).
Variable r : AxiosResponse.
Hypothesis Hguard : JS.gt (retry ctx) maxRetries = false.
Hypothesis Hget : reply env 0%nat = Resolved r.

Lemma update_guard_passes :
  JS.truthy (retry ctx) && JS.gt (retry ctx) maxRetries = false.
Proof. rewrite Hguard. apply andb_false_r. Qed.

Lemma update_verify_read :
  JS.truthy (serverTiming ctx) || completed ctx = true ->
  invoke updateHandler model ctx env =
  if JS.truthy (serverTiming ctx)
     && JS.lt (getServerTiming r) (serverTiming ctx) then
    (InProgress model
       {| retry := JS.succ (retry ctx); operationCompleted := None;
          successfulCalls := JS.Undefined;
          serverTiming := getServerTiming r |}
       None,
     [CallGet])
  else (Success (Some (setModelFrom model r)), [CallGet]).
Proof.
  intros Hphase. exec. rewrite update_guard_passes.
  assert (Hskip : negb (JS.truthy (serverTiming ctx)) && negb (completed ctx) = false).
  { rewrite <- negb_orb, Hphase. reflexivity. }
  rewrite Hskip. exec. rewrite Hget. exec.
  destruct (JS.truthy (serverTiming ctx) && JS.lt (getServerTiming r) (serverTiming ctx));
    reflexivity.
Qed.
End UpdateVerify.

(** In a run of Update no timing marker is ever recorded: [serverTiming] is
    only written by the branch that already requires it (line 212).  The
    retry count of a run is absent or 1. *)
Lemma update_run_invariant (ctx : CallbackContext) :
  produced updateHandler ctx ->
  serverTiming ctx = JS.Undefined
  /\ (retry ctx = JS.Undefined \/ retry ctx = JS.Num 1).
Proof.
  induction 1 as [|model ctx env m ctx' d Hrun [Htiming Hretry] Hstep].
  - split; [reflexivity | left; reflexivity].
  - destruct ctx as [rt oc sc st]. cbn in Htiming, Hretry. subst st.
    revert Hstep.
    destruct Hretry as [-> | ->]; exec; split_run; intros Heq; simplify_eq;
      cbn; auto.
Qed.

(** The context Update hands back once the update call has succeeded is the
    context of a run. *)
Lemma update_run_verifying : produced updateHandler (verifying 1).
Proof.
  exact (produced_next updateHandler ∅ emptyContext (alwaysResolved resourceFound)
           ∅ (verifying 1) _ (produced_first updateHandler) eq_refl).
Defined.



(** ** The context returned by the retry helper *)

Lemma or_retry_cases (v : JS.value) :
  (forall n, v = JS.Num n -> n <> 0 -> JS.or v (JS.Num 1) = JS.Num n)
  /\ (JS.truthy v = false -> JS.or v (JS.Num 1) = JS.Num 1).
Proof.
  split.
  - intros n -> Hn. unfold JS.or. cbn.
    destruct (n =? 0) eqn:E; [apply Z.eqb_eq in E; contradiction | reflexivity].
  - intros Hf. unfold JS.or. rewrite Hf. reflexivity.
Qed.

Lemma or_retry_within_bound (v : JS.value) :
  JS.gt v maxRetries = false -> JS.gt (JS.or v (JS.Num 1)) maxRetries = false.
Proof.
  intros Hgt. unfold JS.or. destruct (JS.truthy v); [exact Hgt | reflexivity].
Qed.

(** C10 (as amended).  When the helper answers a retryable fault, the context
    of its [InProgress] event holds the retry field only (the incoming count
    when that is a non-zero number, 1 when it is absent): [serverTiming],
    [operationCompleted] and [successfulCalls] are dropped.  In a run of
    Update, however, a verification read that is rejected after
    [operationCompleted] was set never reaches the helper: no [serverTiming]
    is recorded, so whatever the fault the handler fails with
    [NotStabilized] after that one read; there is no re-invocation and the
    update call is not issued a second time. *)
Theorem helper_returns_retry_only :
  (forall e model ctx l env tr,
     includes l (Some (classify e)) = true ->
     exists ctx' delay,
       processRequestExceptionWithRetryableErrors e model ctx l env tr
       = (Return (InProgress model ctx' delay), tr)
       /\ operationCompleted ctx' = None
       /\ successfulCalls ctx' = JS.Undefined
       /\ serverTiming ctx' = JS.Undefined
       /\ (forall n, retry ctx = JS.Num n -> n <> 0 -> retry ctx' = JS.Num n)
       /\ (retry ctx = JS.Undefined -> retry ctx' = JS.Num 1))
  /\ (forall model ctx env f,
        produced updateHandler ctx ->
        completed ctx = true ->
        reply env 0%nat = Rejected f ->
        invoke updateHandler model ctx env = (Failed NotStabilized, [CallGet])).
Proof.
  split.
  - intros e model ctx l env tr Hin.
    exists (retryOnly (JS.or (retry ctx) (JS.Num 1))). eexists.
    split; [apply helper_retryable; exact Hin|].
    repeat split.
    + intros n Hn Hnz. cbn. apply (proj1 (or_retry_cases (retry ctx)) n Hn Hnz).
    + intros Hn. cbn. rewrite Hn. reflexivity.
  - intros model ctx env f Hrun Hdone Hget.
    destruct (update_run_invariant ctx Hrun) as [Htiming Hretry].
    assert (Hguard : JS.gt (retry ctx) maxRetries = false)
      by (destruct Hretry as [-> | ->]; reflexivity).
    exec. rewrite (update_guard_passes ctx Hguard), Htiming, Hdone. exec.
    rewrite Hget. reflexivity.
Qed.

Lemma helper_returns_retry_only_witness :
  (exists ctx' delay,
     processRequestExceptionWithRetryableErrors
       (AxiosFault (mkFault 503 false)) ∅ (verifying 3) [ServiceInternalError]
       (alwaysRejected 503) []
     = (Return (InProgress ∅ ctx' delay), [])
     /\ operationCompleted ctx' = None
     /\ serverTiming ctx' = JS.Undefined
     /\ retry ctx' = JS.Num 3)
  /\ invoke updateHandler ∅ (verifying 1) (alwaysRejected 404)
     = (Failed NotStabilized, [CallGet]).
Proof.
  split.
  - destruct (proj1 helper_returns_retry_only
                (AxiosFault (mkFault 503 false)) ∅ (verifying 3) [ServiceInternalError]
                (alwaysRejected 503) [] eq_refl)
      as (ctx' & delay & Hrun & Hdone & _ & Htiming & Hretry & _).
    exists ctx', delay. repeat split; try assumption.
    apply (Hretry 3); [reflexivity | lia].
  - apply (proj2 helper_returns_retry_only ∅ (verifying 1) (alwaysRejected 404)
             (mkFault 404 false) update_run_verifying eq_refl eq_refl).
Defined.

(** C10, counterexample.  The context Update returns once the update call has
    succeeded is [{ retry: 1, operationCompleted: true }], with no
    [serverTiming].  A verification read rejected with a
    [ServiceInternalError] in that context is not retried: the invocation
    fails with [NotStabilized] and there is no re-invocation. *)
Lemma update_verify_fault_without_marker_is_terminal :
  (exists delay,
     invoke updateHandler ∅ emptyContext (alwaysResolved resourceFound)
     = (InProgress ∅ (verifying 1) delay, [CallGet; CallUpdate]))
  /\ classify (AxiosFault (mkFault 503 false)) = ServiceInternalError
  /\ invoke updateHandler ∅ (verifying 1) (alwaysRejected 503)
     = (Failed NotStabilized, [CallGet])
  /\ (forall m c d,
        fst (invoke updateHandler ∅ (verifying 1) (alwaysRejected 503))
        <> InProgress m c d).
Proof.
  split; [eexists; vm_compute; reflexivity|].
  split; [reflexivity|].
  assert (Hrun : invoke updateHandler ∅ (verifying 1) (alwaysRejected 503)
                 = (Failed NotStabilized, [CallGet])) by (vm_compute; reflexivity).
  split; [exact Hrun|]. intros m c d Heq. rewrite Hrun in Heq. discriminate Heq.
Qed.

(** ** The backoff delay *)

Module Backoff.

Section Jitter.
Variables r1 r2 : Q.
Hypothesis Hr1 : (0 <= r1 /\ r1 < 1)%Q.
Hypothesis Hr2 : (0 <= r2 /\ r2 < 1)%Q.

Lemma pow2_pos (k : Z) : (0 < 2 ^ k)%Q.
Proof. apply Qpower_0_lt. reflexivity. Qed.

Lemma jitter_nonneg (k : Z) : (0 <= 2 ^ k * r1 * r2)%Q.
Proof.
  apply Qmult_le_0_compat; [apply Qmult_le_0_compat|]; try tauto.
  apply Qlt_le_weak, pow2_pos.
Qed.

Lemma jitter_le (k : Z) : (2 ^ k * r1 * r2 <= 2 ^ k)%Q.
Proof.
  pose proof (pow2_pos k) as Hp.
  assert (H1 : (2 ^ k * r1 <= 2 ^ k * 1)%Q).
  { apply Qmult_le_l; [exact Hp | apply Qlt_le_weak; tauto]. }
  rewrite Qmult_1_r in H1.
  assert (H2 : (2 ^ k * r1 * r2 <= 2 ^ k * r1 * 1)%Q).
  { apply Qmult_le_compat_nonneg.
    - split; [|apply Qle_refl].
      apply Qmult_le_0_compat; [apply Qlt_le_weak; exact Hp | tauto].
    - split; [tauto | apply Qlt_le_weak; tauto]. }
  rewrite Qmult_1_r in H2.
  eapply Qle_trans; eassumption.
Qed.

Lemma jitter_mono (k k' : Z) :
  (k <= k')%Z -> (2 ^ k * r1 * r2 <= 2 ^ k' * r1 * r2)%Q.
Proof.
  intros Hk.
  apply Qmult_le_compat_r; [apply Qmult_le_compat_r|]; try tauto.
  apply Qpower_le_compat_l; [exact Hk | discriminate].
Qed.

(** For a numeric retry count the delay is the formula
    [2^floor(retry/2) * r1 * r2]; it lies between 0 and [2^floor(retry/2)]. *)
Lemma backoff_bounds (n : Z) :
  backoff (JS.Num n) r1 r2 = JS.FVal (2 ^ (n / 2) * r1 * r2)%Q
  /\ fle (JS.FVal 0) (backoff (JS.Num n) r1 r2)
  /\ fle (backoff (JS.Num n) r1 r2) (JS.FVal (2 ^ (n / 2))%Q).
Proof.
  split; [reflexivity|]. split; cbn.
  - apply jitter_nonneg.
  - apply jitter_le.
Qed.

(** With the jitter fixed, the delay does not decrease when the retry count
    grows. *)
Lemma backoff_monotone (n n' : Z) :
  (n <= n')%Z -> fle (backoff (JS.Num n) r1 r2) (backoff (JS.Num n') r1 r2).
Proof.
  intros Hn. cbn. apply jitter_mono. apply Z.div_le_mono; lia.
Qed.
End Jitter.

(** Computed from an absent retry count the delay is [NaN], which is neither
    non-negative nor bounded. *)
Lemma backoff_undefined (r1 r2 : Q) :
  backoff JS.Undefined r1 r2 = JS.FNaN
  /\ ~ fle (JS.FVal 0) (backoff JS.Undefined r1 r2).
Proof. split; [reflexivity | cbn; tauto]. Qed.

End Backoff.

(** ** Create: stabilisation *)

(** A stabilisation read that resolves: the counter is compared as
    [successfulCalls || 0], but what is stored is
    [callbackContext.successfulCalls + 1]. *)
Lemma create_stabilizing_read
    (model : ResourceModel) (ctx : CallbackContext) (env : Env) (r : AxiosResponse) :
  JS.truthy (retry ctx) = true ->
  reply env 0%nat = Resolved r ->
  invoke createHandler model ctx env =
  if JS.lt (JS.or (successfulCalls ctx) (JS.Num 0)) stabilizationRetries
     && JS.le (retry ctx) maxRetries then
    (InProgress model
       {| retry := retry ctx; operationCompleted := None;
          successfulCalls := JS.succ (successfulCalls ctx);
          serverTiming := JS.Undefined |}
       (Some (backoff (retry ctx) (random1 env) (random2 env))),
     [CallGet])
  else (Success (Some (setModelFrom model r)), [CallGet]).
Proof.
  intros Hretry Hget. unfold invoke, createHandler. rewrite Hretry. exec.
  rewrite Hget. exec.
  destruct (JS.lt (JS.or (successfulCalls ctx) (JS.Num 0)) stabilizationRetries
            && JS.le (retry ctx) maxRetries); reflexivity.
Qed.

(** Past the retry bound the read falls through to [Success], whatever the
    counter of successful reads. *)
Lemma create_stabilizing_past_limit
    (model : ResourceModel) (ctx : CallbackContext) (env : Env) (r : AxiosResponse) (n : Z) :
  retry ctx = JS.Num n ->
  10 < n ->
  reply env 0%nat = Resolved r ->
  invoke createHandler model ctx env = (Success (Some (setModelFrom model r)), [CallGet]).
Proof.
  intros Hretry Hn Hget.
  rewrite (create_stabilizing_read model ctx env r); [|rewrite Hretry; cbn|exact Hget].
  - rewrite Hretry. cbn.
    replace (n <=? 10) with false by (symmetry; apply Z.leb_gt; exact Hn).
    rewrite andb_false_r. reflexivity.
  - apply negb_true_iff, Z.eqb_neq. lia.
Qed.

(** A stabilisation read that is rejected with a retryable fault: the context
    handed back holds the retry count only. *)
Lemma create_stabilizing_fault
    (model : ResourceModel) (ctx : CallbackContext) (env : Env) (f : ApiFault) :
  JS.truthy (retry ctx) = true ->
  reply env 0%nat = Rejected f ->
  includes [NotFound; ServiceInternalError] (Some (classify (AxiosFault f))) = true ->
  invoke createHandler model ctx env
  = (InProgress model (retryOnly (retry ctx))
       (Some (backoff (retry ctx) (random1 env) (random2 env))),
     [CallGet]).
Proof.
  intros Hretry Hget Hin. unfold invoke, createHandler. rewrite Hretry. exec.
  rewrite Hget. exec.
  change (match f with {| status := s |} => _ end) with (classify (AxiosFault f)).
  cbn [includes] in Hin. rewrite Hin.
  unfold JS.or. rewrite Hretry. reflexivity.
Qed.

(** Once the context carries a retry count, Create only ever reads: the
    create call is not issued. *)
Lemma create_with_retry_only_reads
    (model : ResourceModel) (ctx : CallbackContext) (env : Env) :
  JS.truthy (retry ctx) = true ->
  snd (invoke createHandler model ctx env) = [CallGet].
Proof.
  intros Hretry. unfold invoke, createHandler. rewrite Hretry. exec.
  destruct (reply env 0); exec.
  - destruct (_ && _); reflexivity.
  - destruct (bool_decide _); reflexivity.
Qed.

(** C1, at the failing input.  Create's stabilisation read arriving with
    [retry = 11] and [successfulCalls = 2] resolves: the event is [Success],
    not [Failed NotStabilized].  Delete's verification read arriving with
    [retry = 11] and rejected with a 503 is answered by [InProgress]. *)
Theorem past_retry_limit_not_terminal :
  invoke createHandler ∅ (stabilizing 11 (JS.Num 2)) (alwaysResolved resourceFound)
  = (Success (Some ∅), [CallGet])
  /\ invoke deleteHandler ∅ (verifying 11) (alwaysRejected 503)
     = (InProgress ∅ (retryOnly (JS.Num 11)) (Some (JS.FVal (32 * (1 # 2) * (1 # 2))%Q)),
        [CallGet]).
Proof.
  split.
  - apply (create_stabilizing_past_limit ∅ _ _ resourceFound 11); [reflexivity | lia | reflexivity].
  - vm_compute. reflexivity.
Qed.

(** C2, at the failing input.  Starting from the context Create returns once
    the create call has succeeded ([{ retry: 1 }]):
    - the first stabilisation read that resolves stores
      [undefined + 1 = NaN] as [successfulCalls], not 1;
    - a rejected stabilisation read hands back [{ retry: 1 }]: the counter is
      dropped, not stored as 0;
    - after a rejected read, five and even six consecutive resolved reads
      leave the operation [InProgress]; [Success] comes with the seventh. *)
Theorem create_stabilization_counter :
  (exists delay,
     invoke createHandler ∅ emptyContext
       (scripted [Rejected (mkFault 404 false)] (Resolved resourceFound))
     = (InProgress ∅ (retryOnly (JS.Num 1)) delay, [CallGet; CallCreate]))
  /\ (exists delay,
        invoke createHandler ∅ (retryOnly (JS.Num 1)) (alwaysResolved resourceFound)
        = (InProgress ∅ (stabilizing 1 JS.NaN) delay, [CallGet]))
  /\ (exists delay,
        invoke createHandler ∅ (stabilizing 1 (JS.Num 3)) (alwaysRejected 404)
        = (InProgress ∅ (retryOnly (JS.Num 1)) delay, [CallGet]))
  /\ (exists delay,
        reinvoke createHandler ∅ (stabilizing 1 (JS.Num 3))
          (alwaysRejected 404 :: repeat (alwaysResolved resourceFound) 5)
        = Some (InProgress ∅ (stabilizing 1 (JS.Num 4)) delay))
  /\ (exists delay,
        reinvoke createHandler ∅ (stabilizing 1 (JS.Num 3))
          (alwaysRejected 404 :: repeat (alwaysResolved resourceFound) 6)
        = Some (InProgress ∅ (stabilizing 1 (JS.Num 5)) delay))
  /\ reinvoke createHandler ∅ (stabilizing 1 (JS.Num 3))
       (alwaysRejected 404 :: repeat (alwaysResolved resourceFound) 7)
     = Some (Success (Some ∅)).
Proof.
  do 5 (split; [eexists; vm_compute; reflexivity|]).
  vm_compute. reflexivity.
Qed.

(** When the context is handed back untouched (no JSON in between), [NaN]
    stays [NaN]: a resolved read never advances the counter. *)
Lemma create_nan_counter_is_stuck
    (model : ResourceModel) (env : Env) (r : AxiosResponse) (n : Z) :
  n <> 0 -> n <= 10 ->
  reply env 0%nat = Resolved r ->
  invoke createHandler model (stabilizing n JS.NaN) env
  = (InProgress model (stabilizing n JS.NaN)
       (Some (backoff (JS.Num n) (random1 env) (random2 env))),
     [CallGet]).
Proof.
  intros Hnz Hn Hget.
  rewrite (create_stabilizing_read model _ env r); [|cbn|exact Hget].
  - cbn. replace (n <=? 10) with true by (symmetry; apply Z.leb_le; exact Hn).
    reflexivity.
  - apply negb_true_iff, Z.eqb_neq. exact Hnz.
Qed.

(** C3, at the failing input.  Delete is verifying
    ([{ retry: 2, operationCompleted: true }]) and the read is rejected with a
    503: the handler builds [{ retry: 2, operationCompleted: true }] for the
    helper, but the context of the [InProgress] event is [{ retry: 2 }], with
    [operationCompleted] absent; the re-invocation starts over with the
    existence check and issues the delete call a second time. *)
Theorem delete_verification_fault_loses_flag :
  operationCompleted (verifying 2) = Some true
  /\ (exists delay,
        invoke deleteHandler ∅ (verifying 2) (alwaysRejected 503)
        = (InProgress ∅ (retryOnly (JS.Num 2)) delay, [CallGet]))
  /\ operationCompleted (retryOnly (JS.Num 2)) = None
  /\ snd (invoke deleteHandler ∅ (persist (retryOnly (JS.Num 2)))
            (alwaysResolved resourceFound))
     = [CallGet; CallDelete; CallGet].
Proof.
  split; [reflexivity|].
  split; [eexists; vm_compute; reflexivity|].
  split; [reflexivity|].
  vm_compute. reflexivity.
Qed.

(** C4, at the failing input.  On a first invocation of Create the absence
    check is rejected with a 503: the event is [InProgress] with
    [{ retry: 1 }].  Re-invoked with that context the handler is in the
    stabilisation phase: whatever the API answers, it issues one read and no
    create call; as long as that read is rejected with a 404 (the resource
    was never created) the same context comes back. *)
Theorem create_absence_retry_skips_create :
  (exists delay,
     invoke createHandler ∅ emptyContext (alwaysRejected 503)
     = (InProgress ∅ (retryOnly (JS.Num 1)) delay, [CallGet]))
  /\ (forall env,
        snd (invoke createHandler ∅ (persist (retryOnly (JS.Num 1))) env) = [CallGet])
  /\ (exists delay,
        invoke createHandler ∅ (persist (retryOnly (JS.Num 1))) (alwaysRejected 404)
        = (InProgress ∅ (retryOnly (JS.Num 1)) delay, [CallGet])).
Proof.
  split; [eexists; vm_compute; reflexivity|]. split.
  - intros env. apply create_with_retry_only_reads. reflexivity.
  - eexists. vm_compute. reflexivity.
Qed.

(** C9, at the failing input.  The first invocation of Delete (context [{}])
    reads, deletes and reads again; the resource is still visible, and the
    delay of the [InProgress] event is computed from the absent
    [callbackContext.retry]: it is [NaN], which is not a non-negative
    number. *)
Theorem delete_first_delay_is_nan :
  invoke deleteHandler ∅ emptyContext (alwaysResolved resourceFound)
  = (InProgress ∅ (verifying 2) (Some JS.FNaN), [CallGet; CallDelete; CallGet])
  /\ ~ fle (JS.FVal 0) JS.FNaN.
Proof.
  split; [vm_compute; reflexivity | cbn; tauto].
Qed.

(** ** What holds of every invocation *)

Lemma falsy_number (v : JS.value) (n : Z) :
  JS.truthy v = false -> JS.toNumber v = Some n -> n = 0.
Proof.
  destruct v as [| | |z]; cbn; intros Hf Hn; try discriminate.
  - congruence.
  - apply negb_false_iff, Z.eqb_eq in Hf. congruence.
Qed.

Lemma or_retry_number (v : JS.value) (n : Z) :
  JS.toNumber v = Some n ->
  exists k, JS.or v (JS.Num 1) = JS.Num k /\ n <= k.
Proof.
  intros Hn. destruct (JS.truthy v) eqn:Ht.
  - destruct v as [| | |z]; try discriminate. cbn in Hn. injection Hn as <-.
    exists z. split; [|lia]. unfold JS.or. rewrite Ht. reflexivity.
  - exists 1. split; [unfold JS.or; rewrite Ht; reflexivity|].
    rewrite (falsy_number v n Ht Hn). lia.
Qed.

(** The retry count of a context that is a number (or [null], which counts
    as 0) never decreases from the incoming context to the context of an
    [InProgress] event. *)
Lemma retry_never_decreases
    (handler : ResourceModel -> CallbackContext -> M ProgressEvent)
    (model : ResourceModel) (ctx : CallbackContext) (env : Env)
    (m : ResourceModel) (c : CallbackContext) (d : option JS.float) (n : Z) :
  handler ∈ handlers ->
  JS.toNumber (retry ctx) = Some n ->
  fst (invoke handler model ctx env) = InProgress m c d ->
  exists n', JS.toNumber (retry c) = Some n' /\ n <= n'.
Proof.
  intros Hh Hn.
  destruct (or_retry_number (retry ctx) n Hn) as (k & Hk & Hle).
  assert (Hsame : exists n', JS.toNumber (retry ctx) = Some n' /\ n <= n')
    by (exists n; split; [exact Hn | lia]).
  assert (Hor : exists n', JS.toNumber (JS.or (retry ctx) (JS.Num 1)) = Some n' /\ n <= n')
    by (exists k; rewrite Hk; split; [reflexivity | exact Hle]).
  assert (Hsucc : exists n', JS.toNumber (JS.succ (retry ctx)) = Some n' /\ n <= n')
    by (exists (n + 1); unfold JS.succ; rewrite Hn; split; [reflexivity | lia]).
  assert (Hsuccor : exists n',
             JS.toNumber (JS.succ (JS.or (retry ctx) (JS.Num 1))) = Some n' /\ n <= n')
    by (exists (k + 1); rewrite Hk; split; [reflexivity | lia]).
  unfold handlers in Hh. repeat (apply elem_of_cons in Hh as [-> | Hh]).
  - exec. split_run; intros Heq; simplify_eq; cbn [retry retryOnly]; try assumption.
    exists 1. split; [reflexivity|].
    match goal with
    | H : negb (JS.truthy (retry ctx)) = true |- _ =>
        apply negb_true_iff in H; rewrite (falsy_number _ _ H Hn); lia
    end.
  - exec. split_run; intros Heq; simplify_eq; cbn [retry retryOnly]; assumption.
  - exec. split_run; intros Heq; simplify_eq; cbn [retry retryOnly]; assumption.
  - apply elem_of_nil in Hh. contradiction.
Qed.

(** Every delay a handler computes is the backoff formula applied to the
    incoming retry count, to [retry || 1], or to the constant 1, with the two
    random values of the invocation. *)
Lemma callback_delay_shape
    (handler : ResourceModel -> CallbackContext -> M ProgressEvent)
    (model : ResourceModel) (ctx : CallbackContext) (env : Env)
    (m : ResourceModel) (c : CallbackContext) (d : JS.float) :
  handler ∈ handlers ->
  fst (invoke handler model ctx env) = InProgress m c (Some d) ->
  exists v,
    d = backoff v (random1 env) (random2 env)
    /\ (v = retry ctx \/ v = JS.or (retry ctx) (JS.Num 1) \/ v = JS.Num 1).
Proof.
  intros Hh.
  unfold handlers in Hh. repeat (apply elem_of_cons in Hh as [-> | Hh]).
  - exec. split_run; intros Heq; simplify_eq; eauto 6.
  - exec. split_run; intros Heq; simplify_eq; eauto 6.
  - exec. split_run; intros Heq; simplify_eq; eauto 6.
  - apply elem_of_nil in Hh. contradiction.
Qed.

(** An exception that leaves a handler is always a handler exception: the
    rejection of an API call is either swallowed (Create's absence check) or
    classified by the helper. *)
Lemma thrown_is_classified
    (handler : ResourceModel -> CallbackContext -> M ProgressEvent)
    (model : ResourceModel) (ctx : CallbackContext) (env : Env) (e : Thrown) :
  handler ∈ handlers ->
  fst (handler model ctx env []) = Throw e ->
  exists k, e = Raised k.
Proof.
  intros Hh.
  unfold handlers in Hh. repeat (apply elem_of_cons in Hh as [-> | Hh]).
  - exec. split_run; intros Heq; simplify_eq; eauto.
  - exec. split_run; intros Heq; simplify_eq; eauto.
  - exec. split_run; intros Heq; simplify_eq; eauto.
  - apply elem_of_nil in Hh. contradiction.
Qed.

(** * Further properties of the handlers *)

(** ** Create: the first invocation *)

(** On a first invocation, an absence check rejected with 404 or 400 is
    followed by the create call; when that resolves the event is
    [InProgress] with the model merged from the response of the create call,
    the context [{ retry: 1 }] and the delay of retry count 1. *)
Theorem create_first_invocation_creates
    (model : ResourceModel) (ctx : CallbackContext) (env : Env)
    (f : ApiFault) (r : AxiosResponse) :
  JS.truthy (retry ctx) = false ->
  reply env 0%nat = Rejected f ->
  status f = 404 \/ status f = 400 ->
  reply env 1%nat = Resolved r ->
  invoke createHandler model ctx env
  = (InProgress (setModelFrom model r) (retryOnly (JS.Num 1))
       (Some (backoff (JS.Num 1) (random1 env) (random2 env))),
     [CallGet; CallCreate]).
Proof.
  intros Hretry Hget Hstatus Hcreate.
  unfold invoke, createHandler. rewrite Hretry. exec. rewrite Hget. exec.
  assert (Hskip : negb (status f =? 404) && negb (status f =? 400) = false).
  { destruct Hstatus as [-> | ->]; reflexivity. }
  rewrite Hskip. exec. rewrite Hcreate. reflexivity.
Qed.

Lemma create_first_invocation_creates_witness :
  invoke createHandler ∅ emptyContext
    (scripted [Rejected (mkFault 400 false)] (Resolved resourceFound))
  = (InProgress ∅ (retryOnly (JS.Num 1)) (Some (JS.FVal (1 * (1 # 2) * (1 # 2))%Q)),
     [CallGet; CallCreate]).
Proof.
  apply (create_first_invocation_creates ∅ emptyContext
           (scripted [Rejected (mkFault 400 false)] (Resolved resourceFound))
           (mkFault 400 false) resourceFound);
    [reflexivity | reflexivity | right; reflexivity | reflexivity].
Defined.

(** On a first invocation, an absence check rejected with a status other
    than 404 and 400 goes to the helper: a fault that is not classified
    [ServiceInternalError] ends the invocation with that fault's kind, and no
    create call is issued. *)
Theorem create_absence_fault_is_terminal
    (model : ResourceModel) (ctx : CallbackContext) (env : Env) (f : ApiFault) :
  JS.truthy (retry ctx) = false ->
  reply env 0%nat = Rejected f ->
  status f <> 404 -> status f <> 400 ->
  classify (AxiosFault f) <> ServiceInternalError ->
  invoke createHandler model ctx env = (Failed (classify (AxiosFault f)), [CallGet]).
Proof.
  intros Hretry Hget H404 H400 Hkind.
  unfold invoke, createHandler. rewrite Hretry. exec. rewrite Hget. exec.
  apply Z.eqb_neq in H404, H400. rewrite H404, H400. exec.
  change (match f with {| status := s |} => _ end) with (classify (AxiosFault f)).
  rewrite bool_decide_eq_false_2; [reflexivity|].
  intros Hin. apply list_elem_of_singleton in Hin. contradiction.
Qed.

Lemma create_absence_fault_is_terminal_witness :
  invoke createHandler ∅ emptyContext (alwaysRejected 403) = (Failed Other, [CallGet]).
Proof.
  apply (create_absence_fault_is_terminal ∅ emptyContext (alwaysRejected 403)
           (mkFault 403 false));
    [reflexivity | reflexivity | cbn; lia | cbn; lia | discriminate].
Defined.

(** On a first invocation whose absence check passed, a rejected create call
    is retried when its fault is classified [NotFound] or
    [ServiceInternalError] (the model is unchanged and the context is
    [{ retry: 1 }]) and ends the invocation with the fault's kind
    otherwise. *)
Theorem create_call_fault
    (model : ResourceModel) (ctx : CallbackContext) (env : Env) (f f' : ApiFault) :
  JS.truthy (retry ctx) = false ->
  reply env 0%nat = Rejected f ->
  status f = 404 \/ status f = 400 ->
  reply env 1%nat = Rejected f' ->
  invoke createHandler model ctx env
  = (if includes [NotFound; ServiceInternalError] (Some (classify (AxiosFault f')))
     then InProgress model (retryOnly (JS.Num 1))
            (Some (backoff (JS.Num 1) (random1 env) (random2 env)))
     else Failed (classify (AxiosFault f')),
     [CallGet; CallCreate]).
Proof.
  intros Hretry Hget Hstatus Hcreate.
  unfold invoke, createHandler. rewrite Hretry. exec. rewrite Hget. exec.
  assert (Hskip : negb (status f =? 404) && negb (status f =? 400) = false).
  { destruct Hstatus as [-> | ->]; reflexivity. }
  rewrite Hskip. exec. rewrite Hcreate. exec.
  change (match f' with {| status := s |} => _ end) with (classify (AxiosFault f')).
  unfold JS.or. rewrite Hretry.
  destruct (bool_decide _); reflexivity.
Qed.

Lemma create_call_fault_witness :
  invoke createHandler ∅ emptyContext
    (scripted [Rejected (mkFault 404 false)] (Rejected (mkFault 403 false)))
  = (Failed Other, [CallGet; CallCreate]).
Proof.
  apply (create_call_fault ∅ emptyContext
           (scripted [Rejected (mkFault 404 false)] (Rejected (mkFault 403 false)))
           (mkFault 404 false) (mkFault 403 false));
    [reflexivity | reflexivity | left; reflexivity | reflexivity].
Defined.

(** ** The API calls of one invocation *)

(** Whatever the context and whatever the API answers, one invocation issues
    one of a few call sequences: Create reads and then at most creates;
    Update issues nothing (entry guard), or reads and then at most updates;
    Delete reads, then at most deletes, then at most reads once more.  No
    handler issues the mutating call of another one, or its own twice. *)
Theorem invocation_call_sequences
    (model : ResourceModel) (ctx : CallbackContext) (env : Env) :
  (snd (invoke createHandler model ctx env) = [CallGet]
   \/ snd (invoke createHandler model ctx env) = [CallGet; CallCreate])
  /\ (snd (invoke updateHandler model ctx env) = []
      \/ snd (invoke updateHandler model ctx env) = [CallGet]
      \/ snd (invoke updateHandler model ctx env) = [CallGet; CallUpdate])
  /\ (snd (invoke deleteHandler model ctx env) = [CallGet]
      \/ snd (invoke deleteHandler model ctx env) = [CallGet; CallDelete]
      \/ snd (invoke deleteHandler model ctx env) = [CallGet; CallDelete; CallGet]).
Proof.
  split; [|split].
  - exec. split_run; auto.
  - exec. split_run; auto.
  - exec. split_run; auto.
Qed.

(** The mutating call is only issued after the read of the same invocation
    had the expected outcome: Create creates only when the absence check was
    rejected with 404 or 400 (never when the read resolved); Update and
    Delete mutate only when the existence read resolved. *)
Theorem mutation_follows_read
    (model : ResourceModel) (ctx : CallbackContext) (env : Env) :
  (CallCreate ∈ snd (invoke createHandler model ctx env) ->
     exists f, reply env 0%nat = Rejected f /\ (status f = 404 \/ status f = 400))
  /\ (CallUpdate ∈ snd (invoke updateHandler model ctx env) ->
        exists r, reply env 0%nat = Resolved r)
  /\ (CallDelete ∈ snd (invoke deleteHandler model ctx env) ->
        exists r, reply env 0%nat = Resolved r).
Proof.
  assert (Hno : forall (c : Call) (l : list Call),
             bool_decide (c ∈ l) = false -> c ∈ l -> False).
  { intros c l Hd Hin. apply bool_decide_eq_false in Hd. contradiction. }
  assert (Hst : forall f, negb (status f =? 404) && negb (status f =? 400) = false ->
                          status f = 404 \/ status f = 400).
  { intros f H. apply andb_false_iff in H as [H | H];
      apply negb_false_iff, Z.eqb_eq in H; auto. }
  split; [|split]; exec.
  all: repeat match goal with
         | |- context [match reply ?e ?n with _ => _ end] =>
             destruct (reply e n) eqn:?; exec
         | |- context [if ?b then _ else _] => destruct b eqn:?; exec
         end.
  all: try (intros Hin; exfalso; revert Hin; apply Hno; reflexivity).
  all: intros _; eauto.
Qed.

Lemma mutation_follows_read_witness :
  (exists f, reply (scripted [Rejected (mkFault 404 false)] (Resolved resourceFound)) 0%nat
             = Rejected f /\ (status f = 404 \/ status f = 400))
  /\ (exists r, reply (alwaysResolved resourceFound) 0%nat = Resolved r).
Proof.
  split.
  - apply (proj1 (mutation_follows_read ∅ emptyContext
                    (scripted [Rejected (mkFault 404 false)] (Resolved resourceFound)))).
    apply (bool_decide_unpack _). vm_compute. exact I.
  - apply (proj1 (proj2 (mutation_follows_read ∅ emptyContext
                           (alwaysResolved resourceFound)))).
    apply (bool_decide_unpack _). vm_compute. exact I.
Defined.

(** ** When an invocation ends with [Success] *)

(** [Success] is only returned after a read made by the same invocation.
    Create succeeds only in an invocation that carries a retry count, whose
    single call is a read that resolved, with the model merged from it;
    Update succeeds only in its verification phase, its single call being a
    read that resolved, with the model merged from it; Delete succeeds only
    without a model, when the last call of the invocation was a read and
    that read was rejected with a fault classified [NotFound]. *)
Theorem success_follows_read
    (model : ResourceModel) (ctx : CallbackContext) (env : Env)
    (m : option ResourceModel) :
  (fst (invoke createHandler model ctx env) = Success m ->
     JS.truthy (retry ctx) = true
     /\ snd (invoke createHandler model ctx env) = [CallGet]
     /\ exists r, reply env 0%nat = Resolved r /\ m = Some (setModelFrom model r))
  /\ (fst (invoke updateHandler model ctx env) = Success m ->
        JS.truthy (serverTiming ctx) || completed ctx = true
        /\ snd (invoke updateHandler model ctx env) = [CallGet]
        /\ exists r, reply env 0%nat = Resolved r /\ m = Some (setModelFrom model r))
  /\ (fst (invoke deleteHandler model ctx env) = Success m ->
        m = None
        /\ exists k f,
             length (snd (invoke deleteHandler model ctx env)) = S k
             /\ snd (invoke deleteHandler model ctx env) !! k = Some CallGet
             /\ reply env k = Rejected f
             /\ classify (AxiosFault f) = NotFound).
Proof.
  split; [|split]; exec.
  - split_run_eq; intros Heq; simplify_eq.
    match goal with
    | H : negb (JS.truthy (retry ctx)) = false |- _ => apply negb_false_iff in H
    end.
    split; [assumption|]. split; [reflexivity | eauto].
  - split_run_eq; intros Heq; simplify_eq.
    match goal with
    | H : negb (JS.truthy (serverTiming ctx)) && negb (completed ctx) = false |- _ =>
        rewrite <- negb_orb in H; apply negb_false_iff in H
    end.
    split; [assumption|]. split; [reflexivity | eauto].
  - split_run_eq; intros Heq; simplify_eq.
    all: split; [reflexivity|].
    all: match goal with
         | H : match classify (AxiosFault ?f) with _ => _ end = true |- _ =>
             destruct (classify (AxiosFault f)) eqn:Hkind; try discriminate H
         end.
    + exists 2%nat. eexists. repeat split; eauto.
    + exists 0%nat. eexists. repeat split; eauto.
Qed.

Lemma success_follows_read_witness :
  (JS.truthy (retry (stabilizing 1 (JS.Num 5))) = true
   /\ snd (invoke createHandler ∅ (stabilizing 1 (JS.Num 5)) (alwaysResolved resourceFound))
      = [CallGet]
   /\ exists r, reply (alwaysResolved resourceFound) 0%nat = Resolved r
                /\ Some (∅ : ResourceModel) = Some (setModelFrom ∅ r))
  /\ (None (A := ResourceModel) = None
      /\ exists k f,
           length (snd (invoke deleteHandler ∅ (verifying 1) (alwaysRejected 404))) = S k
           /\ snd (invoke deleteHandler ∅ (verifying 1) (alwaysRejected 404)) !! k
              = Some CallGet
           /\ reply (alwaysRejected 404) k = Rejected f
           /\ classify (AxiosFault f) = NotFound).
Proof.
  split.
  - apply (proj1 (success_follows_read ∅ (stabilizing 1 (JS.Num 5))
                    (alwaysResolved resourceFound) (Some ∅))).
    vm_compute. reflexivity.
  - apply (proj2 (proj2 (success_follows_read ∅ (verifying 1) (alwaysRejected 404) None))).
    vm_compute. reflexivity.
Defined.

(** ** Update: existence check, update call, and the two invocations *)

(** In Update's first phase a rejected existence read never leads to the
    update call: a fault classified [ServiceInternalError] is retried with
    the context [{ retry: retry || 1 }], any other one (a missing resource
    included) ends the invocation with the fault's kind. *)
Theorem update_existence_fault
    (model : ResourceModel) (ctx : CallbackContext) (env : Env) (f : ApiFault) :
  JS.gt (retry ctx) maxRetries = false ->
  JS.truthy (serverTiming ctx) = false ->
  completed ctx = false ->
  reply env 0%nat = Rejected f ->
  invoke updateHandler model ctx env
  = (if includes [ServiceInternalError] (Some (classify (AxiosFault f)))
     then InProgress model (retryOnly (JS.or (retry ctx) (JS.Num 1)))
            (Some (backoff (JS.or (retry ctx) (JS.Num 1)) (random1 env) (random2 env)))
     else Failed (classify (AxiosFault f)),
     [CallGet]).
Proof.
  intros Hguard Htiming Hdone Hget.
  exec. rewrite (update_guard_passes ctx Hguard), Htiming, Hdone. exec.
  rewrite Hget. exec.
  change (match f with {| status := s |} => _ end) with (classify (AxiosFault f)).
  destruct (bool_decide _); reflexivity.
Qed.

Lemma update_existence_fault_witness :
  invoke updateHandler ∅ emptyContext (alwaysRejected 404) = (Failed NotFound, [CallGet]).
Proof.
  apply (update_existence_fault ∅ emptyContext (alwaysRejected 404) (mkFault 404 false));
    reflexivity.
Defined.

Lemma update_first_phase_run
    (model : ResourceModel) (ctx : CallbackContext) (env : Env) (r0 r1 : AxiosResponse) :
  JS.gt (retry ctx) maxRetries = false ->
  JS.truthy (serverTiming ctx) = false ->
  completed ctx = false ->
  reply env 0%nat = Resolved r0 ->
  reply env 1%nat = Resolved r1 ->
  invoke updateHandler model ctx env
  = (InProgress model
       {| retry := JS.or (retry ctx) (JS.Num 1); operationCompleted := Some true;
          successfulCalls := JS.Undefined; serverTiming := JS.Undefined |}
       (Some (backoff (JS.or (retry ctx) (JS.Num 1)) (random1 env) (random2 env))),
     [CallGet; CallUpdate]).
Proof.
  intros Hguard Htiming Hdone H0 H1.
  exec. rewrite (update_guard_passes ctx Hguard), Htiming, Hdone. exec.
  rewrite H0. exec. rewrite H1. reflexivity.
Qed.

(** When the existence read and the update call both resolve, the event is
    [InProgress] with [{ retry: retry || 1, operationCompleted: true }]; the
    model is the desired state, not merged from the response of the update
    call, and no verification read is made in that invocation. *)
Theorem update_issues_update
    (model : ResourceModel) (ctx : CallbackContext) (env : Env) (r0 r1 : AxiosResponse) :
  JS.gt (retry ctx) maxRetries = false ->
  JS.truthy (serverTiming ctx) = false ->
  completed ctx = false ->
  reply env 0%nat = Resolved r0 ->
  reply env 1%nat = Resolved r1 ->
  exists ctx',
    invoke updateHandler model ctx env
    = (InProgress model ctx'
         (Some (backoff (retry ctx') (random1 env) (random2 env))),
       [CallGet; CallUpdate])
    /\ retry ctx' = JS.or (retry ctx) (JS.Num 1)
    /\ operationCompleted ctx' = Some true
    /\ serverTiming ctx' = JS.Undefined.
Proof.
  intros Hguard Htiming Hdone H0 H1.
  exists {| retry := JS.or (retry ctx) (JS.Num 1); operationCompleted := Some true;
            successfulCalls := JS.Undefined; serverTiming := JS.Undefined |}.
  split.
  - apply (update_first_phase_run model ctx env r0 r1); assumption.
  - repeat split.
Qed.

Lemma update_issues_update_witness :
  exists ctx',
    invoke updateHandler ∅ emptyContext (alwaysResolved (observed 9))
    = (InProgress ∅ ctx'
         (Some (backoff (retry ctx') (1 # 2) (1 # 2))),
       [CallGet; CallUpdate])
    /\ retry ctx' = JS.Num 1
    /\ operationCompleted ctx' = Some true
    /\ serverTiming ctx' = JS.Undefined.
Proof.
  apply (update_issues_update ∅ emptyContext (alwaysResolved (observed 9))
           (observed 9) (observed 9)); reflexivity.
Defined.

(** Once the update call has succeeded and no timing marker is recorded, a
    rejected verification read ends the operation with [NotStabilized],
    whatever the fault: it is neither classified nor retried. *)
Theorem update_verify_fault_without_marker
    (model : ResourceModel) (ctx : CallbackContext) (env : Env) (f : ApiFault) :
  JS.gt (retry ctx) maxRetries = false ->
  JS.truthy (serverTiming ctx) = false ->
  completed ctx = true ->
  reply env 0%nat = Rejected f ->
  invoke updateHandler model ctx env = (Failed NotStabilized, [CallGet]).
Proof.
  intros Hguard Htiming Hdone Hget.
  exec. rewrite (update_guard_passes ctx Hguard), Htiming, Hdone. exec.
  rewrite Hget. reflexivity.
Qed.

Lemma update_verify_fault_without_marker_witness :
  invoke updateHandler ∅ (verifying 4) (alwaysRejected 404) = (Failed NotStabilized, [CallGet]).
Proof.
  apply (update_verify_fault_without_marker ∅ (verifying 4) (alwaysRejected 404)
           (mkFault 404 false)); reflexivity.
Defined.

(** An Update that starts in its first phase and meets no fault takes exactly
    two invocations: the first issues the calls get, update and returns
    [InProgress]; the second, invoked with the context of that event as the
    host stored it, issues the single call get and returns [Success] with
    the model merged from that read. *)
Theorem update_two_invocations
    (model : ResourceModel) (ctx : CallbackContext) (env1 env2 : Env)
    (r0 r1 r : AxiosResponse) :
  JS.gt (retry ctx) maxRetries = false ->
  JS.truthy (serverTiming ctx) = false ->
  completed ctx = false ->
  reply env1 0%nat = Resolved r0 ->
  reply env1 1%nat = Resolved r1 ->
  reply env2 0%nat = Resolved r ->
  exists m ctx' d,
    invoke updateHandler model ctx env1 = (InProgress m ctx' d, [CallGet; CallUpdate])
    /\ invoke updateHandler model (persist ctx') env2
       = (Success (Some (setModelFrom model r)), [CallGet])
    /\ reinvoke updateHandler model ctx [env1; env2]
       = Some (Success (Some (setModelFrom model r))).
Proof.
  intros Hguard Htiming Hdone H0 H1 H2.
  pose proof (update_first_phase_run model ctx env1 r0 r1 Hguard Htiming Hdone H0 H1)
    as Hfirst.
  assert (Hor : exists n, JS.or (retry ctx) (JS.Num 1) = JS.Num n
                          /\ JS.gt (JS.Num n) maxRetries = false).
  { pose proof (or_retry_within_bound (retry ctx) Hguard) as Hb.
    unfold JS.or in *. destruct (JS.truthy (retry ctx)) eqn:Ht.
    - destruct (retry ctx); try discriminate. eauto.
    - eauto. }
  destruct Hor as (n & Hn & Hb). rewrite Hn in Hfirst.
  pose proof (update_verify_read model
                (persist {| retry := JS.Num n; operationCompleted := Some true;
                            successfulCalls := JS.Undefined;
                            serverTiming := JS.Undefined |})
                env2 r Hb H2 eq_refl) as Hsecond.
  cbn [persist serverTiming JS.json JS.truthy andb] in Hsecond.
  do 3 eexists. split; [exact Hfirst|]. split; [exact Hsecond|].
  cbn [reinvoke]. rewrite Hfirst. cbn [fst]. rewrite Hsecond. reflexivity.
Qed.

Lemma update_two_invocations_witness :
  exists m ctx' d,
    invoke updateHandler ∅ emptyContext (alwaysResolved resourceFound)
    = (InProgress m ctx' d, [CallGet; CallUpdate])
    /\ invoke updateHandler ∅ (persist ctx') (alwaysResolved (observed 3))
       = (Success (Some (setModelFrom ∅ (observed 3))), [CallGet])
    /\ reinvoke updateHandler ∅ emptyContext
         [alwaysResolved resourceFound; alwaysResolved (observed 3)]
       = Some (Success (Some (setModelFrom ∅ (observed 3)))).
Proof.
  apply (update_two_invocations ∅ emptyContext
           (alwaysResolved resourceFound) (alwaysResolved (observed 3))
           resourceFound resourceFound (observed 3)); reflexivity.
Defined.

(** ** Delete: existence check and delete call *)

(** Deleting in the first phase starts with an existence read; when that is
    rejected the delete call is not issued: a fault classified
    [ServiceInternalError] is retried, any other one ends the invocation with
    its kind.  In particular deleting a resource that does not exist fails
    with [NotFound]. *)
Theorem delete_existence_fault
    (model : ResourceModel) (ctx : CallbackContext) (env : Env) (f : ApiFault) :
  completed ctx = false ->
  reply env 0%nat = Rejected f ->
  invoke deleteHandler model ctx env
  = (if includes [ServiceInternalError] (Some (classify (AxiosFault f)))
     then InProgress model (retryOnly (JS.or (retry ctx) (JS.Num 1)))
            (Some (backoff (JS.or (retry ctx) (JS.Num 1)) (random1 env) (random2 env)))
     else Failed (classify (AxiosFault f)),
     [CallGet]).
Proof.
  intros Hdone Hget. exec. rewrite Hdone. exec. rewrite Hget. exec.
  change (match f with {| status := s |} => _ end) with (classify (AxiosFault f)).
  destruct (bool_decide _); reflexivity.
Qed.

Lemma delete_existence_fault_witness :
  invoke deleteHandler ∅ emptyContext (alwaysRejected 404) = (Failed NotFound, [CallGet]).
Proof.
  apply (delete_existence_fault ∅ emptyContext (alwaysRejected 404) (mkFault 404 false));
    reflexivity.
Defined.

(** A rejected delete call ends the invocation without a verification read:
    a fault classified [NotFound] or [ServiceInternalError] is retried with
    the context [{ retry: retry || 1 }] (so the next invocation starts again
    with the existence read), any other one is terminal. *)
Theorem delete_call_fault
    (model : ResourceModel) (ctx : CallbackContext) (env : Env)
    (r : AxiosResponse) (f : ApiFault) :
  completed ctx = false ->
  reply env 0%nat = Resolved r ->
  reply env 1%nat = Rejected f ->
  invoke deleteHandler model ctx env
  = (if includes [NotFound; ServiceInternalError] (Some (classify (AxiosFault f)))
     then InProgress model (retryOnly (JS.or (retry ctx) (JS.Num 1)))
            (Some (backoff (JS.or (retry ctx) (JS.Num 1)) (random1 env) (random2 env)))
     else Failed (classify (AxiosFault f)),
     [CallGet; CallDelete]).
Proof.
  intros Hdone H0 H1. exec. rewrite Hdone. exec. rewrite H0. exec. rewrite H1. exec.
  change (match f with {| status := s |} => _ end) with (classify (AxiosFault f)).
  destruct (bool_decide _); reflexivity.
Qed.

Lemma delete_call_fault_witness :
  invoke deleteHandler ∅ emptyContext
    (scripted [Resolved resourceFound] (Rejected (mkFault 404 false)))
  = (InProgress ∅ (retryOnly (JS.Num 1)) (Some (JS.FVal (1 * (1 # 2) * (1 # 2))%Q)),
     [CallGet; CallDelete]).
Proof.
  apply (delete_call_fault ∅ emptyContext
           (scripted [Resolved resourceFound] (Rejected (mkFault 404 false)))
           resourceFound (mkFault 404 false)); reflexivity.
Defined.

(** ** Across invocations: how long the polling lasts *)

Lemma reinvoke_single
    (handler : ResourceModel -> CallbackContext -> M ProgressEvent)
    (model : ResourceModel) (ctx : CallbackContext) (env : Env) :
  reinvoke handler model ctx [env] = Some (fst (invoke handler model ctx env)).
Proof. cbn [reinvoke]. destruct (fst (invoke handler model ctx env)); reflexivity. Qed.

Lemma reinvoke_in_progress
    (handler : ResourceModel -> CallbackContext -> M ProgressEvent)
    (model : ResourceModel) (ctx : CallbackContext) (env env' : Env) (rest : list Env)
    (m : ResourceModel) (ctx' : CallbackContext) (d : option JS.float) :
  fst (invoke handler model ctx env) = InProgress m ctx' d ->
  reinvoke handler model ctx (env :: env' :: rest)
  = reinvoke handler model (persist ctx') (env' :: rest).
Proof. intros Hrun. cbn [reinvoke]. rewrite Hrun. reflexivity. Qed.

Lemma reinvoke_terminal
    (handler : ResourceModel -> CallbackContext -> M ProgressEvent)
    (model : ResourceModel) (ctx : CallbackContext) (env : Env) (rest : list Env)
    (ev : ProgressEvent) :
  fst (invoke handler model ctx env) = ev ->
  (forall m c d, ev <> InProgress m c d) ->
  reinvoke handler model ctx (env :: rest) = Some ev.
Proof.
  intros Hrun Hterm. cbn [reinvoke]. rewrite Hrun.
  destruct ev; try reflexivity. exfalso. eapply Hterm. reflexivity.
Qed.



Lemma counter_below_threshold (k : Z) :
  JS.lt (JS.or (JS.Num k) (JS.Num 0)) stabilizationRetries = (k <? 5).
Proof.
  cbn. destruct (k =? 0) eqn:E; cbn; [|reflexivity].
  apply Z.eqb_eq in E. subst k. reflexivity.
Qed.

(** Create's stabilisation counts resolved reads.  Starting from
    [{ retry: n, successfulCalls: k }] with a numeric counter and a retry
    count within the bound, as long as every read resolves each invocation
    adds one to the counter and leaves the retry count as it is; the
    invocation that arrives with a counter of 5 or more returns [Success]
    with the model merged from its own read.  From [k = 0] that is the sixth
    invocation. *)
Theorem create_stabilization_counts_reads
    (model : ResourceModel) (envs : list Env) (n k : Z) :
  n <> 0 -> n <= 10 ->
  envs <> [] ->
  Forall firstResolves envs ->
  (k + Z.of_nat (length envs) <= 5 ->
     exists d, reinvoke createHandler model (stabilizing n (JS.Num k)) envs
               = Some (InProgress model
                         (stabilizing n (JS.Num (k + Z.of_nat (length envs)))) d))
  /\ (5 < k + Z.of_nat (length envs) ->
        exists env r,
          envs !! Z.to_nat (5 - k) = Some env
          /\ reply env 0%nat = Resolved r
          /\ reinvoke createHandler model (stabilizing n (JS.Num k)) envs
             = Some (Success (Some (setModelFrom model r)))).
Proof.
  intros Hnz Hn Hne Hall. revert k.
  induction Hall as [|env rest [r Hget] Hrest IH]; [contradiction|].
  intros k.
  assert (Htruthy : JS.truthy (retry (stabilizing n (JS.Num k))) = true).
  { cbn. apply negb_true_iff, Z.eqb_neq. exact Hnz. }
  pose proof (create_stabilizing_read model (stabilizing n (JS.Num k)) env r Htruthy Hget)
    as Hrun.
  cbn [successfulCalls stabilizing retry] in Hrun.
  rewrite counter_below_threshold in Hrun.
  replace (JS.le (JS.Num n) maxRetries) with true in Hrun
    by (symmetry; cbn; apply Z.leb_le; exact Hn).
  rewrite andb_true_r in Hrun.
  destruct (k <? 5) eqn:Hk.
  - apply Z.ltb_lt in Hk.
    destruct rest as [|env' rest].
    + rewrite reinvoke_single, Hrun. cbn [length fst]. split; intros Hlen; [|lia].
      replace (k + Z.of_nat 1) with (k + 1) by lia. eexists. reflexivity.
    + rewrite (reinvoke_in_progress _ _ _ _ _ _ _ _ _ (f_equal fst Hrun)).
      change (persist _) with (stabilizing n (JS.Num (k + 1))).
      destruct (IH ltac:(discriminate) (k + 1)) as [IHp IHs].
      replace (k + Z.of_nat (length (env :: env' :: rest)))
        with (k + 1 + Z.of_nat (length (env' :: rest)))
        by (cbn [length]; lia).
      split; [exact IHp|].
      intros Hlen. destruct (IHs Hlen) as (e & r' & Hlook & Hr' & Hres).
      exists e, r'. split; [|split; assumption].
      replace (Z.to_nat (5 - k)) with (S (Z.to_nat (5 - (k + 1)))) by lia.
      exact Hlook.
  - apply Z.ltb_ge in Hk. split; intros Hlen.
    + cbn [length] in Hlen. lia.
    + exists env, r.
      replace (Z.to_nat (5 - k)) with 0%nat by lia.
      split; [reflexivity|]. split; [exact Hget|].
      apply reinvoke_terminal; [rewrite Hrun; reflexivity | discriminate].
Qed.

Lemma create_stabilization_counts_reads_witness :
  (exists d, reinvoke createHandler ∅ (stabilizing 1 (JS.Num 0))
               (repeat (alwaysResolved resourceFound) 5)
             = Some (InProgress ∅ (stabilizing 1 (JS.Num 5)) d))
  /\ (exists env r,
        repeat (alwaysResolved resourceFound) 6 !! 5%nat = Some env
        /\ reply env 0%nat = Resolved r
        /\ reinvoke createHandler ∅ (stabilizing 1 (JS.Num 0))
             (repeat (alwaysResolved resourceFound) 6)
           = Some (Success (Some (setModelFrom ∅ r)))).
Proof.
  assert (Hall : forall k, Forall firstResolves (repeat (alwaysResolved resourceFound) k)).
  { intros k. apply Forall_forall. intros env Hin.
    apply list_elem_of_In, repeat_spec in Hin. subst env.
    exists resourceFound. reflexivity. }
  split.
  - apply (proj1 (create_stabilization_counts_reads
                    ∅ (repeat (alwaysResolved resourceFound) 5) 1 0
                    ltac:(lia) ltac:(lia) ltac:(discriminate) (Hall 5%nat))).
    cbn. lia.
  - apply (proj2 (create_stabilization_counts_reads
                    ∅ (repeat (alwaysResolved resourceFound) 6) 1 0
                    ltac:(lia) ltac:(lia) ltac:(discriminate) (Hall 6%nat))).
    cbn. lia.
Defined.

(** ** Delete in one invocation *)

(** A first Delete invocation can finish the operation: when the existence
    read and the delete call resolve and the verification read that follows
    is rejected with a fault classified [NotFound], the event is [Success]
    (without a model) after exactly three calls. *)
Theorem delete_completes_in_one_invocation
    (model : ResourceModel) (ctx : CallbackContext) (env : Env)
    (r0 r1 : AxiosResponse) (f : ApiFault) :
  completed ctx = false ->
  reply env 0%nat = Resolved r0 ->
  reply env 1%nat = Resolved r1 ->
  reply env 2%nat = Rejected f ->
  classify (AxiosFault f) = NotFound ->
  invoke deleteHandler model ctx env = (Success None, [CallGet; CallDelete; CallGet]).
Proof.
  intros Hdone H0 H1 H2 Hkind. exec. rewrite Hdone. exec.
  rewrite H0. exec. rewrite H1. exec. rewrite H2. exec.
  change (match f with {| status := s |} => _ end) with (classify (AxiosFault f)).
  rewrite Hkind. reflexivity.
Qed.

Lemma delete_completes_in_one_invocation_witness :
  invoke deleteHandler ∅ emptyContext
    (scripted [Resolved resourceFound; Resolved resourceFound] (Rejected (mkFault 404 false)))
  = (Success None, [CallGet; CallDelete; CallGet]).
Proof.
  apply (delete_completes_in_one_invocation ∅ emptyContext
           (scripted [Resolved resourceFound; Resolved resourceFound]
                     (Rejected (mkFault 404 false)))
           resourceFound resourceFound (mkFault 404 false)); reflexivity.
Defined.

Lemma delete_first_invocation_verifies_witness :
  invoke deleteHandler ∅ (retryOnly (JS.Num 4)) (alwaysResolved resourceFound)
  = (InProgress ∅ (verifying 5) (Some (JS.FVal (4 * (1 # 2) * (1 # 2))%Q)),
     [CallGet; CallDelete; CallGet]).
Proof.
  apply (delete_first_invocation_verifies ∅ (retryOnly (JS.Num 4))
           (alwaysResolved resourceFound) resourceFound resourceFound resourceFound);
    reflexivity.
Defined.

(** ** Every invocation: retry count, exceptions, delay *)

Lemma handlers_all :
  createHandler ∈ handlers /\ updateHandler ∈ handlers /\ deleteHandler ∈ handlers.
Proof. unfold handlers. repeat split; repeat constructor. Qed.

Lemma retry_never_decreases_witness :
  exists n', JS.toNumber (retry (verifying 4)) = Some n' /\ 3 <= n'.
Proof.
  apply (retry_never_decreases deleteHandler ∅ (verifying 3)
           (alwaysResolved resourceFound) ∅ (verifying 4)
           (Some (JS.FVal (2 * (1 # 2) * (1 # 2))%Q)) 3).
  - apply handlers_all.
  - reflexivity.
  - vm_compute. reflexivity.
Defined.

(** In an invocation whose context carries a retry count [n] between 0 and
    2047 (the range in which the power of two is a finite number), the delay
    asked of the host is a number between 0 and [2^floor(max(n,1)/2)]
    seconds, whatever the handler and whatever the API answers. *)
Theorem delay_is_bounded
    (handler : ResourceModel -> CallbackContext -> M ProgressEvent)
    (model : ResourceModel) (ctx : CallbackContext) (env : Env)
    (m : ResourceModel) (c : CallbackContext) (d : JS.float) (n : Z) :
  handler ∈ handlers ->
  retry ctx = JS.Num n ->
  0 <= n <= 2047 ->
  (0 <= random1 env /\ random1 env < 1)%Q ->
  (0 <= random2 env /\ random2 env < 1)%Q ->
  fst (invoke handler model ctx env) = InProgress m c (Some d) ->
  fle (JS.FVal 0) d /\ fle d (JS.FVal (2 ^ (Z.max n 1 / 2))%Q).
Proof.
  intros Hh Hretry Hrange Hr1 Hr2 Hrun.
  destruct (callback_delay_shape handler model ctx env m c d Hh Hrun) as (v & -> & Hv).
  assert (Hnum : exists j, v = JS.Num j /\ j <= Z.max n 1).
  { rewrite Hretry in Hv. destruct Hv as [-> | [-> | ->]].
    - exists n. split; [reflexivity | lia].
    - cbn. destruct (n =? 0); cbn; eexists; (split; [reflexivity | lia]).
    - exists 1. split; [reflexivity | lia]. }
  destruct Hnum as (j & -> & Hj). cbn. split.
  - apply Backoff.jitter_nonneg; assumption.
  - eapply Qle_trans; [apply Backoff.jitter_le; assumption|].
    apply Qpower_le_compat_l; [|discriminate].
    apply Z.div_le_mono; lia.
Qed.

Lemma delay_is_bounded_witness :
  fle (JS.FVal 0) (JS.FVal (4 * (1 # 2) * (1 # 2))%Q)
  /\ fle (JS.FVal (4 * (1 # 2) * (1 # 2))%Q) (JS.FVal (2 ^ (Z.max 4 1 / 2))%Q).
Proof.
  apply (delay_is_bounded deleteHandler ∅ (verifying 4) (alwaysResolved resourceFound)
           ∅ (verifying 5) (JS.FVal (4 * (1 # 2) * (1 # 2))%Q) 4).
  - apply handlers_all.
  - reflexivity.
  - lia.
  - split; [discriminate | reflexivity].
  - split; [discriminate | reflexivity].
  - vm_compute. reflexivity.
Defined.

(** With the two random factors fixed, the delay does not decrease when the
    retry count grows, for retry counts between 0 and 2047. *)
Theorem backoff_monotone_in_range (r1 r2 : Q) (n n' : Z) :
  (0 <= r1 /\ r1 < 1)%Q ->
  (0 <= r2 /\ r2 < 1)%Q ->
  0 <= n -> n <= n' -> n' <= 2047 ->
  fle (backoff (JS.Num n) r1 r2) (backoff (JS.Num n') r1 r2).
Proof.
  intros Hr1 Hr2 H0 Hle Hmax. cbn.
  apply Backoff.jitter_mono; try assumption.
  apply Z.div_le_mono; lia.
Qed.

Lemma backoff_monotone_in_range_witness :
  fle (backoff (JS.Num 3) (1 # 2) (1 # 3)) (backoff (JS.Num 6) (1 # 2) (1 # 3)).
Proof.
  apply (backoff_monotone_in_range (1 # 2) (1 # 3) 3 6).
  - split; [discriminate | reflexivity].
  - split; [discriminate | reflexivity].
  - lia.
  - lia.
  - lia.
Defined.

(** The delay grows by steps, for retry counts between 0 and 2047: the
    counts [2j] and [2j + 1] give the same delay, and two more retries
    double it. *)
Theorem backoff_steps (r1 r2 : Q) :
  (forall j, 0 <= j -> 2 * j + 1 <= 2047 ->
     backoff (JS.Num (2 * j + 1)) r1 r2 = backoff (JS.Num (2 * j)) r1 r2)
  /\ (forall n, 0 <= n -> n + 2 <= 2047 ->
        exists a b,
          backoff (JS.Num n) r1 r2 = JS.FVal a
          /\ backoff (JS.Num (n + 2)) r1 r2 = JS.FVal b
          /\ (b == 2 * a)%Q).
Proof.
  split.
  - intros j _ _. cbn.
    replace ((2 * j + 1) / 2) with j by (apply Z.div_unique with 1; lia).
    replace (2 * j / 2) with j by (apply Z.div_unique with 0; lia).
    reflexivity.
  - intros n _ _. do 2 eexists. split; [reflexivity|]. split; [reflexivity|].
    replace ((n + 2) / 2) with (n / 2 + 1)
      by (replace (n + 2) with (n + 1 * 2) by lia; rewrite Z.div_add by lia; reflexivity).
    rewrite Qpower_plus by discriminate.
    change (2 ^ 1)%Q with 2%Q. ring.
Qed.

Lemma backoff_steps_witness :
  backoff (JS.Num 5) (1 # 2) (1 # 3) = backoff (JS.Num 4) (1 # 2) (1 # 3)
  /\ exists a b,
       backoff (JS.Num 4) (1 # 2) (1 # 3) = JS.FVal a
       /\ backoff (JS.Num 6) (1 # 2) (1 # 3) = JS.FVal b
       /\ (b == 2 * a)%Q.
Proof.
  split.
  - apply (proj1 (backoff_steps (1 # 2) (1 # 3)) 2); lia.
  - apply (proj2 (backoff_steps (1 # 2) (1 # 3)) 4); lia.
Defined.

(** ** Merging a response into the model, and listing *)

Lemma setModelFrom_removes_witness :
  setModelFrom ∅ {| data := Some {[ "tags"%string := "t"%string ]}; timing := 0 |}
    !! "tags"%string = None
  /\ setModelFrom ∅ {| data := Some {[ "tags"%string := "t"%string ]}; timing := 0 |}
       !! "requests"%string = None.
Proof.
  apply (setModelFrom_removes ∅
           {| data := Some {[ "tags"%string := "t"%string ]}; timing := 0 |}
           {[ "tags"%string := "t"%string ]}).
  reflexivity.
Defined.

(** Merging the same response a second time changes nothing. *)
Theorem setModelFrom_idempotent (model : ResourceModel) (r : AxiosResponse) :
  setModelFrom (setModelFrom model r) r = setModelFrom model r.
Proof.
  unfold setModelFrom. destruct (data r) as [d|]; [|reflexivity].
  apply map_eq. intros k.
  destruct (decide (k = "requests"%string)) as [-> | Hreq].
  { rewrite !lookup_delete_eq. reflexivity. }
  rewrite (lookup_delete_ne _ "requests"%string k) by congruence.
  rewrite (lookup_delete_ne _ "requests"%string k) by congruence.
  destruct (decide (k = "tags"%string)) as [-> | Htags].
  { rewrite !lookup_delete_eq. reflexivity. }
  rewrite (lookup_delete_ne _ "tags"%string k) by congruence.
  rewrite (lookup_delete_ne _ "tags"%string k) by congruence.
  rewrite !lookup_union.
  rewrite (lookup_delete_ne _ "requests"%string k) by congruence.
  rewrite (lookup_delete_ne _ "tags"%string k) by congruence.
  rewrite lookup_union.
  destruct (d !! k), (model !! k); reflexivity.
Qed.

(** A field of the model that the response does not carry survives the
    merge, unless it is [tags] or [requests]; a field the response carries is
    overwritten, the entity id included. *)
Theorem setModelFrom_keeps_and_overwrites
    (model : ResourceModel) (r : AxiosResponse) (d : gmap string string)
    (k v : string) :
  data r = Some d ->
  k <> "tags"%string -> k <> "requests"%string ->
  (d !! k = None -> setModelFrom model r !! k = model !! k)
  /\ (d !! k = Some v -> setModelFrom model r !! k = Some v).
Proof.
  intros Hd Htags Hreq. unfold setModelFrom. rewrite Hd.
  rewrite lookup_delete_ne by congruence.
  rewrite lookup_delete_ne by congruence.
  rewrite lookup_union.
  split; intros ->; destruct (model !! k); reflexivity.
Qed.

Lemma setModelFrom_keeps_and_overwrites_witness :
  setModelFrom {[ "entityId"%string := "X"%string ]}
    {| data := Some {[ "entityId"%string := "Y"%string ]}; timing := 0 |}
    !! "entityId"%string
  = Some "Y"%string.
Proof.
  apply (proj2 (setModelFrom_keeps_and_overwrites
                  {[ "entityId"%string := "X"%string ]}
                  {| data := Some {[ "entityId"%string := "Y"%string ]}; timing := 0 |}
                  {[ "entityId"%string := "Y"%string ]} "entityId" "Y"
                  eq_refl ltac:(discriminate) ltac:(discriminate))).
  reflexivity.
Defined.

(** [list] returns one model per monitor of the response, in the same
    order; each of them is the requested model overlaid with the payload of
    that monitor, without [tags] and [requests]. *)
Theorem listModels_fields
    (model : ResourceModel) (monitors : list (gmap string string)) :
  length (listModels model monitors) = length monitors
  /\ forall (i : nat) (p : gmap string string),
       monitors !! i = Some p ->
       exists m,
         listModels model monitors !! i = Some m
         /\ m !! "tags"%string = None
         /\ m !! "requests"%string = None
         /\ forall k : string,
              k <> "tags"%string -> k <> "requests"%string ->
              m !! k = match p !! k with
                       | Some v => Some v
                       | None => model !! k
                       end.
Proof.
  split; [apply length_fmap|].
  intros i p Hp. unfold listModels. rewrite list_lookup_fmap, Hp. cbn.
  eexists. split; [reflexivity|]. unfold setModelFrom. cbn [data].
  split; [|split].
  - rewrite lookup_delete_ne by discriminate. apply lookup_delete_eq.
  - apply lookup_delete_eq.
  - intros k Htags Hreq.
    rewrite lookup_delete_ne by congruence.
    rewrite lookup_delete_ne by congruence.
    rewrite lookup_union.
    destruct (p !! k), (model !! k); reflexivity.
Qed.

Lemma listModels_fields_witness :
  exists m,
    listModels {[ "frequencyMin"%string := "5"%string ]}
      [ {[ "entityId"%string := "A"%string ]}; {[ "entityId"%string := "B"%string ]} ]
      !! 1%nat = Some m
    /\ m !! "tags"%string = None
    /\ m !! "requests"%string = None
    /\ forall k : string,
         k <> "tags"%string -> k <> "requests"%string ->
         m !! k = match ({[ "entityId"%string := "B"%string ]} : gmap string string) !! k with
                  | Some v => Some v
                  | None => ({[ "frequencyMin"%string := "5"%string ]} : gmap string string) !! k
                  end.
Proof.
  apply (proj2 (listModels_fields {[ "frequencyMin"%string := "5"%string ]}
                  [ {[ "entityId"%string := "A"%string ]};
                    {[ "entityId"%string := "B"%string ]} ])
           1%nat {[ "entityId"%string := "B"%string ]}).
  reflexivity.
Defined.
